(** * A shallow embedding of [actix-http/src/body/boxed.rs]

    [BoxBody] owns a pinned, heap allocated trait object
    [dyn MessageBody<Error = Box<dyn StdError>>].  We model:
    - [Pin<&mut Self>] / [&mut self] receivers as explicit state passing:
      a method returns its result together with the updated receiver;
    - [&self] receivers as plain functions of the receiver (no new state);
    - the trait [MessageBody] as a type class over the receiver type and its
      associated [Error] type;
    - a trait object [dyn MessageBody<Error = E>] as an existential package
      of a hidden concrete type, its vtable (the instance) and its value;
    - [Box<dyn StdError>] as an existential package of a type and a value of
      that type, so that "the original value" of an error stays observable.

    Universes are polymorphic because a [BoxBody] may itself be erased into
    another [BoxBody] (the nested test of the source file). *)

From Stdlib Require Import List String Init.Byte.
Import ListNotations.

Set Universe Polymorphism.
Set Implicit Arguments.

(** [bytes::Bytes] *)
Definition Bytes : Type := list byte.

(** [BodySize]: [None] (empty body), [Sized(u64)] and [Stream] (unknown). *)
Inductive BodySize : Type :=
| BSNone
| BSSized (n : nat)
| BSStream.

(** [std::task::Poll] *)
Inductive Poll (A : Type) : Type :=
| Ready (a : A)
| Pending.
Arguments Ready {A} a.
Arguments Pending {A}.

(** [core::result::Result] *)
Inductive Result (T E : Type) : Type :=
| Ok (t : T)
| Err (e : E).
Arguments Ok {T E} t.
Arguments Err {T E} e.

(** [Poll::map_err] on [Poll<Option<Result<T, E>>>]. *)
Definition poll_map_err {T E E' : Type} (f : E -> E')
    (p : Poll (option (Result T E))) : Poll (option (Result T E')) :=
  match p with
  | Pending => Pending
  | Ready None => Ready None
  | Ready (Some (Ok t)) => Ready (Some (Ok t))
  | Ready (Some (Err e)) => Ready (Some (Err (f e)))
  end.

(** [Box<dyn StdError>]: a boxed value whose concrete type is erased. *)
Definition BoxError : Type := { T : Type & T }.

(** [Box::new(e) as Box<dyn StdError>] *)
Definition box_dyn {E : Type} (e : E) : BoxError := existT (fun T => T) E e.

(** The trait bound [Into<Box<dyn StdError>>]. *)
Class IntoBoxError (E : Type) := into_box : E -> BoxError.

(** [impl<T> From<T> for T]: converting a [Box<dyn StdError>] into itself
    is the identity. *)
#[export] Instance IntoBoxError_BoxError : IntoBoxError BoxError := fun e => e.

(** [std::convert::Infallible] *)
Inductive Infallible : Type := .

#[export] Instance IntoBoxError_Infallible : IntoBoxError Infallible :=
  fun e => box_dyn e.

(** Modelled from the spec: [crate::Error] (actix-http/src/error.rs is not
    under src/).  "A single error value type capable of carrying a
    heterogeneous underlying cause plus a fixed classification tag
    ("body production error")". *)
Inductive Kind : Type :=
| KindBody.

Record Error : Type := mkError {
  error_kind : Kind;
  error_cause : option BoxError;
}.

(** Modelled from the spec: [Error::new_body()], the common error tagged
    "body error", with no cause yet. *)
Definition Error_new_body : Error := mkError KindBody None.

(** Modelled from the spec: [Error::with_cause(self, cause: impl
    Into<Box<dyn StdError>>)] stores [cause.into()] as the retrievable
    cause. *)
Definition Error_with_cause {C : Type} `{IntoBoxError C} (err : Error) (cause : C)
    : Error :=
  mkError (error_kind err) (Some (into_box cause)).

(** [crate::Error] is itself a [std::error::Error]: boxing it is [Box::new]. *)
#[export] Instance IntoBoxError_Error : IntoBoxError Error := fun e => box_dyn e.

(** The outcome of a call that may panic ([panic!], a failed [assert!]). *)
Inductive Outcome (A : Type) : Type :=
| Returns (a : A)
| Panics.
Arguments Returns {A} a.
Arguments Panics {A}.

(** The trait [MessageBody] with its associated type [Error] as the class
    parameter [E].  [take_complete_body] may panic (the trait's default
    implementation always does).  [boxed] is not object safe
    ([Self: Sized]); it is the separate class [MessageBodyBoxed] below. *)
Class MessageBody (S : Type) (E : Type) := {
  size : S -> BodySize;
  poll_next : S -> Poll (option (Result Bytes E)) * S;
  is_complete_body : S -> bool;
  take_complete_body : S -> Outcome (Bytes * S);
}.
Arguments size {S E _} _.
Arguments poll_next {S E _} _.
Arguments is_complete_body {S E _} _.
Arguments take_complete_body {S E _} _.

(** [dyn MessageBody<Error = E>]: a hidden concrete type, its vtable and
    its value.  The [Pin<Box<...>>] around it in [BoxBody] is modelled by
    [pin_box_take_complete_body] below. *)
Record DynBody (E : Type) : Type := mkDyn {
  dyn_ty : Type;
  dyn_vt : MessageBody dyn_ty E;
  dyn_val : dyn_ty;
}.
Arguments mkDyn {E} dyn_ty dyn_vt dyn_val.
Arguments dyn_ty {E} d.
Arguments dyn_vt {E} d.
Arguments dyn_val {E} d.

(** Dynamic dispatch through the vtable; the updated value stays behind the
    same vtable. *)
#[export] Instance MessageBody_DynBody (E : Type) : MessageBody (DynBody E) E := {
  size d := @size _ _ (dyn_vt d) (dyn_val d);
  poll_next d :=
    let '(p, v) := @poll_next _ _ (dyn_vt d) (dyn_val d) in
    (p, mkDyn (dyn_ty d) (dyn_vt d) v);
  is_complete_body d := @is_complete_body _ _ (dyn_vt d) (dyn_val d);
  take_complete_body d :=
    match @take_complete_body _ _ (dyn_vt d) (dyn_val d) with
    | Returns (b, v) => Returns (b, mkDyn (dyn_ty d) (dyn_vt d) v)
    | Panics => Panics
    end;
}.

(** Modelled from the spec: [MessageBodyMapErr<B, F>] (body/message_body.rs
    is not under src/), the Error Adapter of section 4.1: size and
    completion queries pass through, successful chunks pass through
    unchanged, and a failure [e] of the inner body becomes [mapper e]. *)
Record MessageBodyMapErr (B E' : Type) (E : Type) : Type := MessageBodyMapErr_new {
  map_err_body : B;
  map_err_mapper : E -> E';
}.
Arguments MessageBodyMapErr_new {B E' E} map_err_body map_err_mapper.
Arguments map_err_body {B E' E} m.
Arguments map_err_mapper {B E' E} m.

#[export] Instance MessageBody_MapErr (B E E' : Type) `{MessageBody B E}
    : MessageBody (MessageBodyMapErr B E' E) E' := {
  size m := size (map_err_body m);
  poll_next m :=
    let '(p, b) := poll_next (map_err_body m) in
    (poll_map_err (map_err_mapper m) p, MessageBodyMapErr_new b (map_err_mapper m));
  is_complete_body m := is_complete_body (map_err_body m);
  take_complete_body m :=
    match take_complete_body (map_err_body m) with
    | Returns (bs, b) => Returns (bs, MessageBodyMapErr_new b (map_err_mapper m))
    | Panics => Panics
    end;
}.

(** [pub struct BoxBody(Pin<Box<dyn MessageBody<Error = Box<dyn StdError>>>>);] *)
Record BoxBody : Type := mkBoxBody {
  box_inner : DynBody BoxError;
}.

(** [BoxBody::new]:
    [let body = MessageBodyMapErr::new(body, Into::into); Self(Box::pin(body))] *)
Definition BoxBody_new {B E : Type} `{MessageBody B E} `{IntoBoxError E} (body : B)
    : BoxBody :=
  let body := MessageBodyMapErr_new (E' := BoxError) body into_box in
  mkBoxBody (mkDyn (MessageBodyMapErr B BoxError E) _ body).

(** [BoxBody::as_pin_mut]: [self.0.as_mut()], the inner trait object with
    its boxed error type. *)
Definition as_pin_mut (bb : BoxBody) : DynBody BoxError := box_inner bb.

(** Polling through the reference returned by [as_pin_mut]: the inner
    object is polled and the update is written back into the [BoxBody]. *)
Definition poll_as_pin_mut (bb : BoxBody)
    : Poll (option (Result Bytes BoxError)) * BoxBody :=
  let '(p, d) := poll_next (as_pin_mut bb) in (p, mkBoxBody d).

(** [cfg(debug_assertions)]: the profile the crate's tests run in, where
    [debug_assert!] is checked. *)
Definition debug_assertions : bool := true.

(** [self.0.take_complete_body()] in [BoxBody]: [self.0] is a
    [Pin<Box<dyn MessageBody>>], which is not [Unpin], so the call resolves
    to [impl MessageBody for Pin<Box<B>>] (body/message_body.rs, not under
    src/).  It cannot reach [&mut B]; instead it
    [debug_assert!]s [is_complete_body()], polls the inner body once and
    returns the chunk of [Poll::Ready(Some(Ok(data)))], panicking on any
    other poll result. *)
Definition pin_box_take_complete_body {S E : Type} `{MessageBody S E} (s : S)
    : Outcome (Bytes * S) :=
  if (debug_assertions && negb (is_complete_body s))%bool then Panics
  else
    match poll_next s with
    | (Ready (Some (Ok data)), s') => Returns (data, s')
    | _ => Panics
    end.

(** [impl fmt::Debug for BoxBody]: [f.write_str("BoxBody(dyn MessageBody)")] *)
Definition BoxBody_fmt_debug (bb : BoxBody) : string :=
  "BoxBody(dyn MessageBody)"%string.

(** [impl MessageBody for BoxBody] with [type Error = Error]. *)
#[export] Instance MessageBody_BoxBody : MessageBody BoxBody Error := {
  size bb := size (box_inner bb);
  poll_next bb :=
    let '(p, d) := poll_next (box_inner bb) in
    (poll_map_err (fun err => Error_with_cause Error_new_body err) p, mkBoxBody d);
  is_complete_body bb := is_complete_body (box_inner bb);
  take_complete_body bb :=
    match pin_box_take_complete_body (box_inner bb) with
    | Returns (bs, d) => Returns (bs, mkBoxBody d)
    | Panics => Panics
    end;
}.

(** [MessageBody::boxed(self) -> BoxBody] (requires [Self: Sized], hence not
    part of the vtable).  The trait's default body is [BoxBody::new(self)];
    [BoxBody] overrides it with [self]. *)
Class MessageBodyBoxed (S : Type) := boxed : S -> BoxBody.

Definition boxed_default {B E : Type} `{MessageBody B E} `{IntoBoxError E} (body : B)
    : BoxBody := BoxBody_new body.

#[export] Instance MessageBodyBoxed_BoxBody : MessageBodyBoxed BoxBody :=
  fun bb => bb.

(** Modelled from the spec: [impl MessageBody for Bytes] (a fixed
    in-memory buffer, an external producer): its size is [Sized(len)], a
    pull yields the whole remaining buffer once and then [end], it is a
    complete body, and taking it leaves the buffer empty. *)
#[export] Instance MessageBody_Bytes : MessageBody Bytes Infallible := {
  size b := BSSized (List.length b);
  poll_next b :=
    match b with
    | [] => (Ready None, [])
    | _ :: _ => (Ready (Some (Ok b)), [])
    end;
  is_complete_body _ := true;
  take_complete_body b := Returns (b, []);
}.

#[export] Instance MessageBodyBoxed_Bytes : MessageBodyBoxed Bytes :=
  fun b => boxed_default b.

(** Modelled from the spec: draining a body by repeated pulls until [end]
    or an error, concatenating the chunks in order ([crate::body::to_bytes]
    is not under src/).  [Pending] is retried; [fuel] bounds the number of
    pulls, [None] means the fuel ran out. *)
Fixpoint drain {S E : Type} `{MessageBody S E} (fuel : nat) (s : S)
    : option (Result Bytes E) :=
  match fuel with
  | O => None
  | Datatypes.S n =>
      let '(p, s') := poll_next s in
      match p with
      | Pending => drain n s'
      | Ready None => Some (Ok [])
      | Ready (Some (Err e)) => Some (Err e)
      | Ready (Some (Ok b)) =>
          match drain n s' with
          | Some (Ok rest) => Some (Ok (b ++ rest))
          | r => r
          end
      end
  end.

(** The results of [n] successive pulls, in order. *)
Fixpoint polls {S E : Type} `{MessageBody S E} (n : nat) (s : S)
    : list (Poll (option (Result Bytes E))) :=
  match n with
  | O => []
  | Datatypes.S k => let '(p, s') := poll_next s in p :: polls k s'
  end.

Definition bytes123 : Bytes := [x01; x02; x03].

Example drain_box_123 : drain 5 (BoxBody_new bytes123) = Some (Ok bytes123).
Proof. reflexivity. Qed.

Example drain_box_box_123 :
  drain 5 (BoxBody_new (BoxBody_new bytes123)) = Some (Ok bytes123).
Proof. reflexivity. Qed.

(** A scripted producer: an implementor of [MessageBody] that returns a
    predetermined list of pull results and then [end].  It is an arbitrary
    (not necessarily fused) producer, as the trait allows. *)
Record Scripted (E : Type) : Type := mkScripted {
  scripted_polls : list (Poll (option (Result Bytes E)));
}.
Arguments mkScripted {E} scripted_polls.
Arguments scripted_polls {E} s.

#[export] Instance MessageBody_Scripted (E : Type) : MessageBody (Scripted E) E := {
  size _ := BSStream;
  poll_next s :=
    match scripted_polls s with
    | [] => (Ready None, s)
    | p :: rest => (p, mkScripted rest)
    end;
  is_complete_body _ := false;
  take_complete_body _ := Panics;
}.

(** An error type of a concrete producer. *)
Inductive IoError : Type :=
| IoError_code (code : nat).

#[export] Instance IntoBoxError_IoError : IntoBoxError IoError := fun e => box_dyn e.

(** Pull results that end the sequence: [end] or an error. *)
Definition is_terminal {E : Type} (p : Poll (option (Result Bytes E))) : bool :=
  match p with
  | Ready None | Ready (Some (Err _)) => true
  | _ => false
  end.

Definition is_chunk {E : Type} (p : Poll (option (Result Bytes E))) : bool :=
  match p with
  | Ready (Some (Ok _)) => true
  | _ => false
  end.

(** A sequence of pull results is fused when no chunk follows a terminal
    result. *)
Fixpoint fused_from {E : Type} (terminated : bool) (ps : list (Poll (option (Result Bytes E))))
    : bool :=
  match ps with
  | [] => true
  | p :: rest =>
      if (terminated && is_chunk p)%bool then false
      else fused_from (terminated || is_terminal p)%bool rest
  end.

Definition fused {E : Type} (ps : list (Poll (option (Result Bytes E)))) : bool :=
  fused_from false ps.

(** The common error [BoxBody::poll_next] builds from a boxed cause. *)
Definition body_error (c : BoxError) : Error :=
  Error_with_cause Error_new_body c.

(** ** Simulation lemmas *)

Section Wrapped.
Context {B E : Type} `{MB : MessageBody B E} `{IB : IntoBoxError E}.

Lemma poll_map_err_compose {E1 E2 E3 : Type} (f : E2 -> E3) (g : E1 -> E2)
    (p : Poll (option (Result Bytes E1))) :
  poll_map_err f (poll_map_err g p) = poll_map_err (fun e => f (g e)) p.
Proof. destruct p as [[[t|e]|]|]; reflexivity. Qed.

Lemma poll_next_BoxBody_new (b : B) :
  poll_next (BoxBody_new b) =
  (poll_map_err (fun e => body_error (into_box e)) (fst (poll_next b)),
   BoxBody_new (snd (poll_next b))).
Proof.
  unfold BoxBody_new; cbn.
  destruct (poll_next b) as [p b']; cbn.
  rewrite poll_map_err_compose; reflexivity.
Qed.


Lemma size_BoxBody_new (b : B) : size (BoxBody_new b) = size b.
Proof. reflexivity. Qed.


End Wrapped.

(** [Result::map_err] *)
Definition result_map_err {T E E' : Type} (f : E -> E') (r : Result T E) : Result T E' :=
  match r with
  | Ok t => Ok t
  | Err e => Err (f e)
  end.

Section Traces.
Context {B E : Type} `{MB : MessageBody B E} `{IB : IntoBoxError E}.

Lemma drain_BoxBody_new (fuel : nat) (b : B) :
  drain fuel (BoxBody_new b) =
  option_map (result_map_err (fun e => body_error (into_box e))) (drain fuel b).
Proof.
  revert b; induction fuel as [|n IH]; intros b; [reflexivity|].
  cbn [drain]; rewrite poll_next_BoxBody_new.
  destruct (poll_next b) as [p b']; cbn [fst snd].
  destruct p as [[[t|e]|]|]; cbn; try reflexivity.
  - rewrite IH. destruct (drain n b') as [[r|e]|]; reflexivity.
  - apply IH.
Qed.

Lemma polls_BoxBody_new (n : nat) (b : B) :
  polls n (BoxBody_new b) =
  map (poll_map_err (fun e => body_error (into_box e))) (polls n b).
Proof.
  revert b; induction n as [|n IH]; intros b; [reflexivity|].
  cbn [polls]; rewrite poll_next_BoxBody_new.
  destruct (poll_next b) as [p b']; cbn [fst snd map].
  rewrite IH; reflexivity.
Qed.

End Traces.

Lemma is_chunk_poll_map_err {E E' : Type} (f : E -> E') (p : Poll (option (Result Bytes E))) :
  is_chunk (poll_map_err f p) = is_chunk p.
Proof. destruct p as [[[t|e]|]|]; reflexivity. Qed.

Lemma is_terminal_poll_map_err {E E' : Type} (f : E -> E') (p : Poll (option (Result Bytes E))) :
  is_terminal (poll_map_err f p) = is_terminal p.
Proof. destruct p as [[[t|e]|]|]; reflexivity. Qed.

Lemma fused_from_map_err {E E' : Type} (f : E -> E') (t : bool)
    (ps : list (Poll (option (Result Bytes E)))) :
  fused_from t (map (poll_map_err f) ps) = fused_from t ps.
Proof.
  revert t; induction ps as [|p ps IH]; intros t; [reflexivity|].
  cbn [map fused_from].
  rewrite is_chunk_poll_map_err, is_terminal_poll_map_err, IH; reflexivity.
Qed.

(** Every [BoxBody] polls its inner object and maps only the error. *)
Lemma poll_next_BoxBody (bb : BoxBody) :
  poll_next bb =
  (poll_map_err body_error (fst (poll_as_pin_mut bb)), snd (poll_as_pin_mut bb)).
Proof.
  destruct bb as [[T vt v]]; unfold poll_as_pin_mut, as_pin_mut; cbn.
  destruct (@poll_next _ _ vt v) as [p v']; reflexivity.
Qed.

Lemma polls_Bytes_tail (n : nat) :
  polls n ([] : Bytes) = repeat (Ready None) n.
Proof. induction n as [|n IH]; cbn; [reflexivity| rewrite IH; reflexivity]. Qed.

Lemma poll_as_pin_mut_BoxBody_new {B E : Type} `{MessageBody B E} `{IntoBoxError E} (b : B) :
  poll_as_pin_mut (BoxBody_new b) =
  (poll_map_err into_box (fst (poll_next b)), BoxBody_new (snd (poll_next b))).
Proof.
  unfold poll_as_pin_mut, as_pin_mut, BoxBody_new; cbn.
  destruct (poll_next b) as [p b']; reflexivity.
Qed.

Lemma polls_Bytes (bs : Bytes) (n : nat) :
  polls (Datatypes.S n) bs =
  (match bs with [] => Ready None | _ :: _ => Ready (Some (Ok bs)) end)
    :: repeat (Ready None) n.
Proof.
  destruct bs as [|x xs]; cbn [polls poll_next MessageBody_Bytes];
    rewrite polls_Bytes_tail; reflexivity.
Qed.

Lemma fused_from_repeat_end {E : Type} (t : bool) (n : nat) :
  fused_from t (repeat (@Ready (option (Result Bytes E)) None) n) = true.
Proof.
  revert t; induction n as [|n IH]; intros t; cbn; [reflexivity|].
  rewrite Bool.andb_false_r; apply IH.
Qed.

(** The body after [n] successive pulls. *)
Fixpoint advance {S E : Type} `{MessageBody S E} (n : nat) (s : S) : S :=
  match n with
  | O => s
  | Datatypes.S k => advance k (snd (poll_next s))
  end.

Lemma advance_BoxBody_new {B E : Type} `{MessageBody B E} `{IntoBoxError E}
    (n : nat) (b : B) :
  advance n (BoxBody_new b) = BoxBody_new (advance n b).
Proof.
  revert b; induction n as [|n IH]; intros b; [reflexivity|].
  cbn [advance]; rewrite poll_next_BoxBody_new; apply IH.
Qed.

Lemma drain_Bytes (bs : Bytes) (n : nat) : drain (2 + n) bs = Some (Ok bs).
Proof.
  destruct bs as [|x xs]; cbn; [reflexivity|].
  destruct n; cbn; rewrite app_nil_r; reflexivity.
Qed.

(** A producer that yields [end] and then, polled again, a chunk. *)
Definition restarting : Scripted IoError :=
  mkScripted [Ready None; Ready (Some (Ok [x01]))].

(** A producer failing on its first pull. *)
Definition failing5 : Scripted IoError :=
  mkScripted [Ready (Some (Err (IoError_code 5)))].

(** ** Claims *)

(** C1: [boxed()] on a [BoxBody] returns the same wrapper; hence erasing an
    erased producer again changes nothing, and an error drained from
    [erase(erase(X))] carries the inner error directly as its cause (one
    adapter hop). *)
Theorem C1_boxed_collapse :
  (forall bb : BoxBody, boxed bb = bb) /\
  (forall (B E : Type) (MB : MessageBody B E) (IB : IntoBoxError E) (x : B) (fuel : nat),
     boxed (boxed_default x) = boxed_default x /\
     drain fuel (boxed (boxed_default x)) = drain fuel (boxed_default x) /\
     drain fuel (boxed (boxed_default x)) =
       option_map (result_map_err (fun e => body_error (into_box e))) (drain fuel x)).
Proof.
  split; [reflexivity|].
  intros B E MB IB x fuel; split; [reflexivity|split; [reflexivity|]].
  apply drain_BoxBody_new.
Qed.

(** C2: when the inner producer fails with [e] on a pull, that very pull of
    its [BoxBody] returns a common error of kind body whose cause is
    [e.into()] ([Box::new(e)], or [e] itself when it is already a
    [Box<dyn StdError>]), and the wrapper goes on with the inner state. *)
Theorem C2_error_cause_preserved {B E : Type} `{MessageBody B E} `{IntoBoxError E}
    (b b' : B) (e : E) (Hpoll : poll_next b = (Ready (Some (Err e)), b')) :
  exists err : Error,
    poll_next (BoxBody_new b) = (Ready (Some (Err err)), BoxBody_new b') /\
    error_kind err = KindBody /\
    error_cause err = Some (into_box e).
Proof.
  exists (body_error (into_box e)).
  rewrite poll_next_BoxBody_new, Hpoll; cbn.
  repeat split.
Qed.

Lemma C2_error_cause_preserved_witness :
  poll_next failing5 = (Ready (Some (Err (IoError_code 5))), mkScripted []) /\
  exists err : Error,
    poll_next (BoxBody_new failing5) = (Ready (Some (Err err)), BoxBody_new (mkScripted [])) /\
    error_kind err = KindBody /\
    error_cause err = Some (box_dyn (IoError_code 5)).
Proof.
  split; [reflexivity|].
  apply (C2_error_cause_preserved failing5 (b' := mkScripted []) (e := IoError_code 5)).
  reflexivity.
Defined.

(** C3: pull by pull, the [BoxBody] of a producer returns the producer's
    results with only errors mapped, so its drain is the producer's drain:
    the same bytes, or the mapped error. *)
Theorem C3_drain_equivalence {B E : Type} `{MessageBody B E} `{IntoBoxError E}
    (b : B) (n : nat) :
  polls n (BoxBody_new b) =
    map (poll_map_err (fun e => body_error (into_box e))) (polls n b) /\
  drain n (BoxBody_new b) =
    option_map (result_map_err (fun e => body_error (into_box e))) (drain n b) /\
  (forall bs : Bytes, drain n (BoxBody_new b) = Some (Ok bs) <-> drain n b = Some (Ok bs)).
Proof.
  split; [apply polls_BoxBody_new|].
  split; [apply drain_BoxBody_new|].
  intros bs; rewrite drain_BoxBody_new.
  destruct (drain n b) as [[r|e]|]; cbn; split; intros Heq; congruence.
Qed.

(** C4 fails: the wrapper has no fusing of its own, so a [BoxBody] whose
    inner producer yields a chunk after [end] does so too. *)
Lemma C4_counterexample :
  ~ (forall (bb : BoxBody) (n : nat), fused (polls n bb) = true).
Proof.
  intros H; specialize (H (BoxBody_new restarting) 2).
  vm_compute in H; discriminate H.
Qed.

(** C4 (amended): pull by pull, a [BoxBody] returns what its producer
    returns (errors mapped), so its pulls are fused exactly when the
    producer's are; for a fixed buffer they are, and after [end] every
    further pull returns [end] again. *)
Theorem C4_fused_iff_inner :
  (forall (B E : Type) (MB : MessageBody B E) (IB : IntoBoxError E) (b : B) (n : nat),
     polls n (BoxBody_new b) =
       map (poll_map_err (fun e => body_error (into_box e))) (polls n b) /\
     fused (polls n (BoxBody_new b)) = fused (polls n b)) /\
  (forall (bs : Bytes) (n : nat),
     fused (polls n (BoxBody_new bs)) = true /\
     polls n (snd (poll_next (BoxBody_new bs))) = repeat (Ready None) n).
Proof.
  split.
  - intros B E MB IB b n; rewrite polls_BoxBody_new; split;
      [reflexivity | apply fused_from_map_err].
  - intros bs n; split.
    + rewrite polls_BoxBody_new; unfold fused; rewrite fused_from_map_err.
      destruct n as [|n]; [reflexivity|].
      rewrite polls_Bytes.
      destruct bs as [|x xs]; cbn [fused_from is_chunk is_terminal andb orb];
        apply fused_from_repeat_end.
    + rewrite poll_next_BoxBody_new; cbn [snd].
      rewrite polls_BoxBody_new.
      assert (Hs : snd (poll_next bs) = []) by (destruct bs; reflexivity).
      rewrite Hs, polls_Bytes_tail.
      clear; induction n as [|n IH]; cbn; [reflexivity|rewrite IH; reflexivity].
Qed.

(** C5: [size] of every [BoxBody] is the size of its inner object (so at
    every point of its life), and the wrapper of a producer reports the
    producer's size after any number of pulls. *)
Theorem C5_size_passthrough :
  (forall bb : BoxBody, size bb = size (as_pin_mut bb)) /\
  (forall (B E : Type) (MB : MessageBody B E) (IB : IntoBoxError E) (b : B) (n : nat),
     size (advance n (BoxBody_new b)) = size (advance n b)).
Proof.
  split; [reflexivity|].
  intros B E MB IB b n; rewrite advance_BoxBody_new; apply size_BoxBody_new.
Qed.



(** C7: a pull of a [BoxBody] is [Pending] exactly when the pull of its
    inner object (and of the producer it was built from) is. *)
Theorem C7_pending_passthrough :
  (forall bb : BoxBody,
     fst (poll_next bb) = Pending <-> fst (poll_as_pin_mut bb) = Pending) /\
  (forall (B E : Type) (MB : MessageBody B E) (IB : IntoBoxError E) (b : B),
     fst (poll_next (BoxBody_new b)) = Pending <-> fst (poll_next b) = Pending).
Proof.
  split.
  - intros bb; rewrite poll_next_BoxBody; cbn [fst].
    destruct (fst (poll_as_pin_mut bb)) as [[[t|e]|]|]; cbn; split; congruence.
  - intros B E MB IB b; rewrite poll_next_BoxBody_new; cbn [fst].
    destruct (fst (poll_next b)) as [[[t|e]|]|]; cbn; split; congruence.
Qed.

(** C8: the [Debug] output of every [BoxBody] is the same fixed string. *)
Theorem C8_debug_fixed (bb1 bb2 : BoxBody) :
  BoxBody_fmt_debug bb1 = BoxBody_fmt_debug bb2 /\
  BoxBody_fmt_debug bb1 = "BoxBody(dyn MessageBody)"%string.
Proof. split; reflexivity. Qed.

(** C9: draining any byte buffer erased once, erased twice with
    [BoxBody::new] (the [nested_boxed_body] test) or twice with [boxed],
    gives exactly that buffer once two pulls are allowed. *)
Theorem C9_nested_drain (bs : Bytes) (n : nat) :
  drain (2 + n) (BoxBody_new bs) = Some (Ok bs) /\
  drain (2 + n) (BoxBody_new (BoxBody_new bs)) = Some (Ok bs) /\
  drain (2 + n) (boxed (boxed bs)) = Some (Ok bs).
Proof.
  assert (Hb : boxed (boxed bs) = BoxBody_new bs) by reflexivity.
  rewrite Hb, !drain_BoxBody_new, drain_Bytes.
  repeat split.
Qed.

(** C10: polling through [as_pin_mut] yields the raw boxed cause
    [e.into()]; only [BoxBody::poll_next] turns it into the common error of
    kind body. *)
Theorem C10_as_pin_mut_raw_cause {B E : Type} `{MessageBody B E} `{IntoBoxError E}
    (b b' : B) (e : E) (Hpoll : poll_next b = (Ready (Some (Err e)), b')) :
  poll_as_pin_mut (BoxBody_new b) = (Ready (Some (Err (into_box e))), BoxBody_new b') /\
  poll_next (BoxBody_new b) =
    (Ready (Some (Err (mkError KindBody (Some (into_box e))))), BoxBody_new b').
Proof.
  rewrite poll_as_pin_mut_BoxBody_new, poll_next_BoxBody_new, Hpoll.
  split; reflexivity.
Qed.

Lemma C10_as_pin_mut_raw_cause_witness :
  poll_next failing5 = (Ready (Some (Err (IoError_code 5))), mkScripted []) /\
  poll_as_pin_mut (BoxBody_new failing5) =
    (Ready (Some (Err (box_dyn (IoError_code 5)))), BoxBody_new (mkScripted [])) /\
  poll_next (BoxBody_new failing5) =
    (Ready (Some (Err (mkError KindBody (Some (box_dyn (IoError_code 5)))))),
     BoxBody_new (mkScripted [])).
Proof.
  split; [reflexivity|].
  apply (C10_as_pin_mut_raw_cause failing5 (b' := mkScripted []) (e := IoError_code 5)).
  reflexivity.
Defined.

(** ** Further properties of [boxed.rs] *)

(** The error a doubly wrapped body ([BoxBody::new(BoxBody::new(b))])
    reports for an inner failure [e]: two body-error layers. *)
Definition nested_body_error {E : Type} `{IntoBoxError E} (e : E) : Error :=
  body_error (box_dyn (body_error (into_box e))).

Lemma result_map_err_compose {T E1 E2 E3 : Type} (f : E2 -> E3) (g : E1 -> E2)
    (r : option (Result T E1)) :
  option_map (result_map_err f) (option_map (result_map_err g) r) =
  option_map (result_map_err (fun e => f (g e))) r.
Proof. destruct r as [[t|e]|]; reflexivity. Qed.

(** [BoxBody::new] applied to a [BoxBody] wraps again (the double boxing
    its doc comment warns about): an inner failure [e] surfaces as a body
    error whose cause is a boxed body error whose cause is [e.into()]. *)
Theorem BoxBody_new_nested_error {B E : Type} `{MessageBody B E} `{IntoBoxError E}
    (b b' : B) (e : E) (Hpoll : poll_next b = (Ready (Some (Err e)), b')) :
  poll_next (BoxBody_new (BoxBody_new b)) =
    (Ready (Some (Err (mkError KindBody
                         (Some (box_dyn (mkError KindBody (Some (into_box e)))))))),
     BoxBody_new (BoxBody_new b')).
Proof.
  rewrite poll_next_BoxBody_new; cbn [fst snd].
  rewrite poll_next_BoxBody_new, Hpoll; reflexivity.
Qed.

Lemma BoxBody_new_nested_error_witness :
  poll_next failing5 = (Ready (Some (Err (IoError_code 5))), mkScripted []) /\
  poll_next (BoxBody_new (BoxBody_new failing5)) =
    (Ready (Some (Err (mkError KindBody
                         (Some (box_dyn (mkError KindBody
                                           (Some (box_dyn (IoError_code 5))))))))),
     BoxBody_new (BoxBody_new (mkScripted []))).
Proof.
  split; [reflexivity|].
  apply (BoxBody_new_nested_error failing5 (b' := mkScripted []) (e := IoError_code 5)).
  reflexivity.
Defined.

(** Draining a doubly wrapped body gives the inner body's bytes, or its
    error under two body-error layers (the [nested_boxed_body] test, for
    every body). *)
Theorem BoxBody_new_nested_drain {B E : Type} `{MessageBody B E} `{IntoBoxError E}
    (b : B) (fuel : nat) :
  drain fuel (BoxBody_new (BoxBody_new b)) =
    option_map (result_map_err nested_body_error) (drain fuel b).
Proof.
  rewrite drain_BoxBody_new, drain_BoxBody_new, result_map_err_compose.
  reflexivity.
Qed.

(** Draining any byte buffer erased twice with [BoxBody::new], with at
    least two pulls, gives back exactly that buffer. *)
Theorem BoxBody_new_nested_bytes (bs : Bytes) (n : nat) :
  drain (2 + n) (BoxBody_new (BoxBody_new bs)) = Some (Ok bs).
Proof.
  rewrite drain_BoxBody_new, drain_BoxBody_new.
  destruct bs as [|x xs]; cbn; [reflexivity|].
  destruct n; cbn; rewrite app_nil_r; reflexivity.
Qed.
